(** * Comparison.py: centralized vs. federated accuracy charts

    A shallow embedding of [Comparison.py].  The script owns six
    module-level datasets and three functions that drive matplotlib's
    [pyplot] state machine.  The datasets are embedded as a record of
    module globals, [pyplot] as an explicit state (open figures plus the
    log of what [plt.show()] put on screen), and each Python function as
    a computation in a state-and-exception monad over both. *)

From Stdlib Require Import List Ascii String ZArith Bool Arith PrimFloat.
Import ListNotations.

Set Warnings "-inexact-float".

Local Open Scope string_scope.
Local Open Scope list_scope.

(** ** Values handed to the plotting library *)

(** A Python [float] is an IEEE binary64 value: Rocq's primitive floats. *)
Definition pyfloat : Set := PrimFloat.float.

(** [np.array] of nested integer lists, row by row. *)
Definition grid := list (list Z).

(** ** Module-level names (lines 5-9 and 46-47) *)

Record module_globals : Type := MkGlobals {
  centralized_acc : list pyfloat;
  centralized_unseen_acc : list pyfloat;
  federated_acc : list pyfloat;
  federated_labels : list string;
  cm_centralized : grid;
  cm_federated : grid
}.

(** The bindings made when the module body is executed. *)
Definition module_load : module_globals :=
  {| centralized_acc := [65.69; 68.72; 68.36]%float;
     centralized_unseen_acc := [0.0; 0.0; 0.0]%float;
     federated_acc := [95.94; 97.35; 94.48; 94.64]%float;
     federated_labels := ["All Digits"; "[1,3,7]"; "[2,5,8]"; "[4,6,9]"];
     cm_centralized := [[50; 2; 1]; [1; 45; 5]; [0; 3; 52]]%Z;
     cm_federated := [[58; 1; 0]; [1; 57; 2]; [0; 1; 59]]%Z |}.

(** ** The matplotlib objects the script builds *)

Record bar_container : Type := MkBars {
  bar_x : list string;
  bar_height : list pyfloat;
  bar_color : string;
  bar_label : string
}.

Record axes_image : Type := MkImage {
  img_data : grid;
  img_cmap : string;
  img_colorbar : bool
}.

Record legend : Type := MkLegend {
  leg_loc : string;
  leg_entries : list string
}.

Record axes : Type := MkAxes {
  ax_bars : list bar_container;
  ax_images : list axes_image;
  ax_ylim : option (pyfloat * pyfloat);
  ax_title : option string;
  ax_title_pad : option Z;
  ax_xlabel : option string;
  ax_ylabel : option string;
  ax_legend : option legend
}.

Record figure : Type := MkFigure {
  fig_figsize : option (Z * Z);
  fig_nrows : nat;
  fig_ncols : nat;
  fig_axes : list axes;
  fig_current : nat;
  fig_suptitle : option string;
  fig_tight : bool
}.

(** [pyplot]'s global state.  [figures] are the open figures in creation
    order, the last one being the current figure.  [displayed] logs one
    entry per [plt.show()]: the figures that call put on screen. *)
Record pyplot : Type := MkPyplot {
  figures : list figure;
  displayed : list (list figure)
}.

Record world : Type := MkWorld {
  globals : module_globals;
  plt : pyplot
}.

(** ** Exceptions and the monad of Python computations *)

Inductive exn : Type :=
| IndexError
| ShapeMismatch        (* ValueError of [Axes.bar]: operands do not broadcast *)
| InhomogeneousShape   (* ValueError of [np.asanyarray] on ragged rows *)
| InvalidImageShape    (* TypeError of [imshow]: data is not 2-D *)
| ImageDtypeError.     (* TypeError of [imshow]: dtype object is no number *)

Inductive outcome (A : Type) : Type :=
| Val (a : A)
| Exc (e : exn).
Arguments Val {A} a.
Arguments Exc {A} e.

(** An exception leaves the effects performed so far in place, so the
    world is returned in both cases. *)
Definition M (A : Type) : Type := world -> outcome A * world.

Definition ret {A} (a : A) : M A := fun w => (Val a, w).

Definition bind {A B} (m : M A) (k : A -> M B) : M B :=
  fun w =>
    match m w with
    | (Val a, w') => k a w'
    | (Exc e, w') => (Exc e, w')
    end.

Definition raise {A} (e : exn) : M A := fun w => (Exc e, w).

(** Look a module-level name up at the moment it is evaluated. *)
Definition read {A} (name : module_globals -> A) : M A :=
  fun w => (Val (name (globals w)), w).

Definition modify_plt (f : pyplot -> pyplot) : M unit :=
  fun w => (Val tt, {| globals := globals w; plt := f (plt w) |}).

(** The open figures, as [pyplot] sees them at this moment. *)
Definition get_figures : M (list figure) :=
  fun w => (Val (figures (plt w)), w).

Declare Scope py_scope.
Delimit Scope py_scope with py.
Notation "x <- m ;; k" := (bind m (fun x => k))
  (at level 61, m at next level, right associativity) : py_scope.
Notation "m ;; k" := (bind m (fun _ => k))
  (at level 61, right associativity) : py_scope.
Local Open Scope py_scope.

(** ** List update by index, as used for figures and axes *)

Fixpoint update_nth {A} (n : nat) (f : A -> A) (l : list A) : list A :=
  match l, n with
  | [], _ => []
  | x :: t, O => f x :: t
  | x :: t, S n' => x :: update_nth n' f t
  end.

(** ** The part of matplotlib the script calls *)

Definition blank_axes : axes :=
  {| ax_bars := []; ax_images := []; ax_ylim := None; ax_title := None;
     ax_title_pad := None; ax_xlabel := None; ax_ylabel := None;
     ax_legend := None |}.

(** A figure with an [nrows] x [ncols] grid of empty axes; the axes
    added last is the current one. *)
Definition new_figure (nrows ncols : nat) (figsize : option (Z * Z)) : figure :=
  {| fig_figsize := figsize;
     fig_nrows := nrows;
     fig_ncols := ncols;
     fig_axes := repeat blank_axes (nrows * ncols);
     fig_current := pred (nrows * ncols);
     fig_suptitle := None;
     fig_tight := false |}.

(** Handles: a figure is named by its position among the open figures,
    an axes by its figure and its position in the figure, an image by
    its axes and its position in the axes. *)
Definition fig_handle := nat.
Definition axes_handle := (fig_handle * nat)%type.
Definition image_handle := (axes_handle * nat)%type.

Definition set_fig_axes (l : list axes) (f : figure) : figure :=
  {| fig_figsize := fig_figsize f; fig_nrows := fig_nrows f;
     fig_ncols := fig_ncols f; fig_axes := l;
     fig_current := fig_current f; fig_suptitle := fig_suptitle f;
     fig_tight := fig_tight f |}.

Definition set_figures (l : list figure) (p : pyplot) : pyplot :=
  {| figures := l; displayed := displayed p |}.

Definition modify_figure (h : fig_handle) (f : figure -> figure) : M unit :=
  modify_plt (fun p => set_figures (update_nth h f (figures p)) p).

Definition modify_axes (h : axes_handle) (f : axes -> axes) : M unit :=
  modify_figure (fst h)
    (fun fg => set_fig_axes (update_nth (snd h) f (fig_axes fg)) fg).

(** [plt.subplots(nrows, ncols, figsize=...)]: open a new figure, make it
    current, and return it with the flat array of its axes. *)
Definition plt_subplots (nrows ncols : nat) (figsize : Z * Z)
  : M (fig_handle * list axes_handle) :=
  l <- get_figures ;;
  let h := List.length l in
  modify_plt (fun p => set_figures (figures p ++ [new_figure nrows ncols (Some figsize)]) p) ;;
  ret (h, map (fun i => (h, i)) (seq 0 (nrows * ncols))).

(** [ax[i]] on the array returned by [plt.subplots]. *)
Definition getitem {A} (l : list A) (i : nat) : M A :=
  match nth_error l i with
  | Some a => ret a
  | None => raise IndexError
  end.

(** [plt.subplots(figsize=...)]: one row, one column, and the single
    axes is returned itself rather than in an array. *)
Definition plt_subplots1 (figsize : Z * Z) : M (fig_handle * axes_handle) :=
  r <- plt_subplots 1 1 figsize ;;
  a <- getitem (snd r) 0 ;;
  ret (fst r, a).

(** [Axes.bar] broadcasts [x] against [height]; lengths that do not
    broadcast raise. *)
Definition broadcastable (n m : nat) : bool :=
  ((n =? m) || (n =? 1) || (m =? 1))%nat.

Definition broadcast {A} (l : list A) (n : nat) : list A :=
  match l with
  | [a] => repeat a n
  | _ => l
  end.

Definition broadcast_len (n m : nat) : nat :=
  if (n =? 1)%nat then m else n.

(** [Axes._convert_dx] with the default bottom [y0 = 0]: a height [dx]
    becomes the extent [(y0 + dx) - y0], in binary64 arithmetic. *)
Definition convert_dx (y0 dx : pyfloat) : pyfloat :=
  PrimFloat.sub (PrimFloat.add y0 dx) y0.

Definition ax_bar (h : axes_handle) (x : list string) (height : list pyfloat)
    (color label : string) : M unit :=
  if broadcastable (List.length x) (List.length height) then
    let n := broadcast_len (List.length x) (List.length height) in
    modify_axes h (fun a =>
      {| ax_bars := ax_bars a ++
           [{| bar_x := broadcast x n;
               bar_height := broadcast (map (convert_dx 0%float) height) n;
               bar_color := color; bar_label := label |}];
         ax_images := ax_images a; ax_ylim := ax_ylim a;
         ax_title := ax_title a; ax_title_pad := ax_title_pad a;
         ax_xlabel := ax_xlabel a; ax_ylabel := ax_ylabel a;
         ax_legend := ax_legend a |})
  else raise ShapeMismatch.

Definition ax_set_ylim (h : axes_handle) (bottom top : pyfloat) : M unit :=
  modify_axes h (fun a =>
    {| ax_bars := ax_bars a; ax_images := ax_images a;
       ax_ylim := Some (bottom, top);
       ax_title := ax_title a; ax_title_pad := ax_title_pad a;
       ax_xlabel := ax_xlabel a; ax_ylabel := ax_ylabel a;
       ax_legend := ax_legend a |}).

Definition ax_set_title (h : axes_handle) (t : string) (pad : option Z) : M unit :=
  modify_axes h (fun a =>
    {| ax_bars := ax_bars a; ax_images := ax_images a; ax_ylim := ax_ylim a;
       ax_title := Some t; ax_title_pad := pad;
       ax_xlabel := ax_xlabel a; ax_ylabel := ax_ylabel a;
       ax_legend := ax_legend a |}).

Definition ax_set_xlabel (h : axes_handle) (t : string) : M unit :=
  modify_axes h (fun a =>
    {| ax_bars := ax_bars a; ax_images := ax_images a; ax_ylim := ax_ylim a;
       ax_title := ax_title a; ax_title_pad := ax_title_pad a;
       ax_xlabel := Some t; ax_ylabel := ax_ylabel a;
       ax_legend := ax_legend a |}).

Definition ax_set_ylabel (h : axes_handle) (t : string) : M unit :=
  modify_axes h (fun a =>
    {| ax_bars := ax_bars a; ax_images := ax_images a; ax_ylim := ax_ylim a;
       ax_title := ax_title a; ax_title_pad := ax_title_pad a;
       ax_xlabel := ax_xlabel a; ax_ylabel := Some t;
       ax_legend := ax_legend a |}).

(** A legend lists the labelled artists; labels that are empty or start
    with an underscore are skipped. *)
Definition legend_visible (l : string) : bool :=
  match l with
  | EmptyString => false
  | String c _ => negb (Ascii.eqb c "_"%char)
  end.

Definition ax_make_legend (h : axes_handle) (loc : string) : M unit :=
  modify_axes h (fun a =>
    {| ax_bars := ax_bars a; ax_images := ax_images a; ax_ylim := ax_ylim a;
       ax_title := ax_title a; ax_title_pad := ax_title_pad a;
       ax_xlabel := ax_xlabel a; ax_ylabel := ax_ylabel a;
       ax_legend :=
         Some {| leg_loc := loc;
                 leg_entries := filter legend_visible (map bar_label (ax_bars a)) |} |}).

Definition set_ax_images (l : list axes_image) (a : axes) : axes :=
  {| ax_bars := ax_bars a; ax_images := l; ax_ylim := ax_ylim a;
     ax_title := ax_title a; ax_title_pad := ax_title_pad a;
     ax_xlabel := ax_xlabel a; ax_ylabel := ax_ylabel a;
     ax_legend := ax_legend a |}.

Definition lookup_axes (h : axes_handle) (l : list figure) : option axes :=
  match nth_error l (fst h) with
  | Some fg => nth_error (fig_axes fg) (snd h)
  | None => None
  end.

(** Rows of differing lengths do not make an array. *)
Definition ragged (z : grid) : bool :=
  match z with
  | [] => false
  | r :: t => negb (forallb (fun r' => (List.length r' =? List.length r)%nat) t)
  end.

(** How [np.asanyarray] types a nested list of Python integers.  All
    entries within the signed 64-bit range give an [int64] array, all
    within the unsigned range a [uint64] array; both keep every entry as
    it is.  A mix of the two ranges is promoted to [float64], which
    rounds each entry to the nearest binary64.  One entry outside both
    ranges makes an array of dtype [object]. *)
Definition fits_int64 (x : Z) : bool :=
  ((- 2 ^ 63 <=? x) && (x <? 2 ^ 63))%Z.

Definition fits_uint64 (x : Z) : bool :=
  ((0 <=? x) && (x <? 2 ^ 64))%Z.

Definition object_dtype (z : grid) : bool :=
  negb (forallb (fun x => fits_int64 x || fits_uint64 x) (List.concat z)).

Definition float_promoted (z : grid) : bool :=
  negb (forallb fits_int64 (List.concat z))
  && negb (forallb fits_uint64 (List.concat z)).

(** The integer that is the binary64 nearest to [x], ties to even: 53
    bits of mantissa are kept. *)
Definition round_binary64 (x : Z) : Z :=
  let a := Z.abs x in
  let k := (Z.log2 a - 52)%Z in
  if (k <=? 0)%Z then x
  else
    let q := Z.shiftr a k in
    let r := (a mod 2 ^ k)%Z in
    let half := (2 ^ (k - 1))%Z in
    let q' := if ((half <? r) || ((r =? half) && Z.odd q))%Z
              then (q + 1)%Z else q in
    (Z.sgn x * Z.shiftl q' k)%Z.

(** The entries of the array [np.asanyarray] makes of a grid whose dtype
    is not [object]. *)
Definition np_values (z : grid) : grid :=
  if float_promoted z then map (map round_binary64) z else z.

(** [Axes.matshow(Z, cmap=...)]: [np.asanyarray(Z)] must succeed, its
    dtype must be numeric and it must be 2-D (an empty outer list is
    1-D); the image is then added to the axes and returned. *)
Definition ax_matshow (h : axes_handle) (z : grid) (cmap : string)
  : M image_handle :=
  if ragged z then raise InhomogeneousShape
  else if object_dtype z then raise ImageDtypeError
  else
    match z with
    | [] => raise InvalidImageShape
    | _ :: _ =>
        l <- get_figures ;;
        let i := match lookup_axes h l with
                 | Some a => List.length (ax_images a)
                 | None => O
                 end in
        modify_axes h (fun a =>
          set_ax_images
            (ax_images a ++
               [{| img_data := np_values z; img_cmap := cmap;
                   img_colorbar := false |}]) a) ;;
        ret (h, i)
    end.

(** [plt.colorbar(mappable)]: attach a colour scale to the image; the
    current axes is left as it was. *)
Definition plt_colorbar (m : image_handle) : M unit :=
  modify_axes (fst m) (fun a =>
    set_ax_images
      (update_nth (snd m)
         (fun im => {| img_data := img_data im; img_cmap := img_cmap im;
                       img_colorbar := true |})
         (ax_images a)) a).

(** [plt.gcf()]: the current figure, created if none is open. *)
Definition plt_gcf : M fig_handle :=
  l <- get_figures ;;
  match l with
  | [] =>
      modify_plt (set_figures [new_figure 0 0 None]) ;;
      ret O
  | _ :: t => ret (List.length t)
  end.

(** [plt.gca()]: the current axes of the current figure, created if the
    figure has none. *)
Definition plt_gca : M axes_handle :=
  h <- plt_gcf ;;
  l <- get_figures ;;
  match nth_error l h with
  | Some fg =>
      match fig_axes fg with
      | [] =>
          modify_figure h (fun _ =>
            {| fig_figsize := fig_figsize fg; fig_nrows := 1; fig_ncols := 1;
               fig_axes := [blank_axes]; fig_current := 0;
               fig_suptitle := fig_suptitle fg; fig_tight := fig_tight fg |}) ;;
          ret (h, O)
      | _ :: _ => ret (h, fig_current fg)
      end
  | None => ret (h, O)
  end.

Definition plt_xlabel (t : string) : M unit :=
  a <- plt_gca ;; ax_set_xlabel a t.

Definition plt_ylabel (t : string) : M unit :=
  a <- plt_gca ;; ax_set_ylabel a t.

Definition plt_suptitle (t : string) : M unit :=
  h <- plt_gcf ;;
  modify_figure h (fun fg =>
    {| fig_figsize := fig_figsize fg; fig_nrows := fig_nrows fg;
       fig_ncols := fig_ncols fg; fig_axes := fig_axes fg;
       fig_current := fig_current fg; fig_suptitle := Some t;
       fig_tight := fig_tight fg |}).

Definition plt_tight_layout : M unit :=
  h <- plt_gcf ;;
  modify_figure h (fun fg =>
    {| fig_figsize := fig_figsize fg; fig_nrows := fig_nrows fg;
       fig_ncols := fig_ncols fg; fig_axes := fig_axes fg;
       fig_current := fig_current fg; fig_suptitle := fig_suptitle fg;
       fig_tight := true |}).

(** [plt.show()] in a script: every open figure is put on screen, the
    call blocks until the windows are closed, and closing a window
    destroys its figure.  With no figure open nothing is shown. *)
Definition plt_show : M unit :=
  modify_plt (fun p =>
    match figures p with
    | [] => p
    | _ :: _ => {| figures := []; displayed := displayed p ++ [figures p] |}
    end).

(** ** The script's functions *)

(** Lines 12-32. *)
Definition plot_accuracy_comparison : M unit :=
  sp <- plt_subplots 1 2 (12, 6)%Z ;;
  let ax := snd sp in
  (* Centralized Learning Plot *)
  a <- getitem ax 0 ;;
  v <- read centralized_acc ;;
  ax_bar a ["Model 1"; "Model 2"; "Model 3"] v "blue" "Entire Dataset" ;;
  a <- getitem ax 0 ;;
  v <- read centralized_unseen_acc ;;
  ax_bar a ["Model 1"; "Model 2"; "Model 3"] v "red" "Unseen Digits" ;;
  a <- getitem ax 0 ;;
  ax_set_ylim a 0%float 100%float ;;
  a <- getitem ax 0 ;;
  ax_set_title a "Centralized Learning" None ;;
  a <- getitem ax 0 ;;
  ax_set_ylabel a "Accuracy (%)" ;;
  a <- getitem ax 0 ;;
  ax_make_legend a "upper left" ;;
  (* Federated Learning Plot *)
  a <- getitem ax 1 ;;
  x <- read federated_labels ;;
  v <- read federated_acc ;;
  ax_bar a x v "green" "Federated Results" ;;
  a <- getitem ax 1 ;;
  ax_set_ylim a 0%float 100%float ;;
  a <- getitem ax 1 ;;
  ax_set_title a "Federated Learning" None ;;
  a <- getitem ax 1 ;;
  ax_set_ylabel a "Accuracy (%)" ;;
  a <- getitem ax 1 ;;
  ax_make_legend a "upper left" ;;
  plt_suptitle "Centralized vs Federated Learning Accuracy Comparison" ;;
  plt_tight_layout ;;
  plt_show.

(** Lines 35-42. *)
Definition plot_confusion_matrix (cm : grid) (title : string) : M unit :=
  sp <- plt_subplots1 (8, 8)%Z ;;
  let ax := snd sp in
  cax <- ax_matshow ax cm "Blues" ;;
  plt_colorbar cax ;;
  ax_set_title ax (title ++ " Confusion Matrix")%string (Some 20%Z) ;;
  plt_xlabel "Predicted" ;;
  plt_ylabel "True" ;;
  plt_show.

(** Lines 49-51. *)
Definition compare_confusion_matrices : M unit :=
  cm <- read cm_centralized ;;
  plot_confusion_matrix cm "Centralized Model" ;;
  cm <- read cm_federated ;;
  plot_confusion_matrix cm "Federated Model".

(** Lines 53-55: the body guarded by [__name__ == "__main__"]. *)
Definition main : M unit :=
  plot_accuracy_comparison ;;
  compare_confusion_matrices.

Definition fresh_pyplot : pyplot := {| figures := []; displayed := [] |}.

(** The world right after the module-level assignments have run. *)
Definition loaded : world := {| globals := module_load; plt := fresh_pyplot |}.

(** Executing the module under the given [__name__]. *)
Definition script (name : string) : outcome unit * world :=
  if String.eqb name "__main__" then main loaded else (Val tt, loaded).

(** ** Sequences of calls to the script's functions *)

Inductive call : Type :=
| PlotAccuracyComparison
| PlotConfusionMatrix (cm : grid) (title : string)
| CompareConfusionMatrices.

Definition run_call (c : call) : M unit :=
  match c with
  | PlotAccuracyComparison => plot_accuracy_comparison
  | PlotConfusionMatrix cm title => plot_confusion_matrix cm title
  | CompareConfusionMatrices => compare_confusion_matrices
  end.

Fixpoint run_calls (cs : list call) : M unit :=
  match cs with
  | [] => ret tt
  | c :: t => run_call c ;; run_calls t
  end.

(** ** Expected pictures *)

Definition mk_world (g : module_globals) (l : list figure)
    (d : list (list figure)) : world :=
  {| globals := g; plt := {| figures := l; displayed := d |} |}.

(** The heat map of [cm] under [title]: one 8x8 figure, one axes, the
    image with its colour bar, the titled axes and both axis labels. *)
Definition heatmap_figure (cm : grid) (title : string) : figure :=
  {| fig_figsize := Some (8, 8)%Z;
     fig_nrows := 1;
     fig_ncols := 1;
     fig_axes :=
       [{| ax_bars := [];
           ax_images := [{| img_data := np_values cm; img_cmap := "Blues";
                            img_colorbar := true |}];
           ax_ylim := None;
           ax_title := Some (title ++ " Confusion Matrix")%string;
           ax_title_pad := Some 20%Z;
           ax_xlabel := Some "Predicted";
           ax_ylabel := Some "True";
           ax_legend := None |}];
     fig_current := 0;
     fig_suptitle := None;
     fig_tight := false |}.

(** The container [Axes.bar] builds from its arguments. *)
Definition bars_of (x : list string) (height : list pyfloat)
    (color label : string) : bar_container :=
  let n := broadcast_len (List.length x) (List.length height) in
  {| bar_x := broadcast x n;
     bar_height := broadcast (map (convert_dx 0%float) height) n;
     bar_color := color; bar_label := label |}.

(** The accuracy comparison for datasets [g]: one 12x6 figure whose two
    panels sit side by side. *)
Definition accuracy_figure (g : module_globals) : figure :=
  {| fig_figsize := Some (12, 6)%Z;
     fig_nrows := 1;
     fig_ncols := 2;
     fig_axes :=
       [{| ax_bars :=
             [bars_of ["Model 1"; "Model 2"; "Model 3"] (centralized_acc g)
                "blue" "Entire Dataset";
              bars_of ["Model 1"; "Model 2"; "Model 3"] (centralized_unseen_acc g)
                "red" "Unseen Digits"];
           ax_images := [];
           ax_ylim := Some (0, 100)%float;
           ax_title := Some "Centralized Learning";
           ax_title_pad := None;
           ax_xlabel := None;
           ax_ylabel := Some "Accuracy (%)";
           ax_legend := Some {| leg_loc := "upper left";
                                leg_entries := ["Entire Dataset"; "Unseen Digits"] |} |};
        {| ax_bars :=
             [bars_of (federated_labels g) (federated_acc g)
                "green" "Federated Results"];
           ax_images := [];
           ax_ylim := Some (0, 100)%float;
           ax_title := Some "Federated Learning";
           ax_title_pad := None;
           ax_xlabel := None;
           ax_ylabel := Some "Accuracy (%)";
           ax_legend := Some {| leg_loc := "upper left";
                                leg_entries := ["Federated Results"] |} |}];
     fig_current := 1;
     fig_suptitle := Some "Centralized vs Federated Learning Accuracy Comparison";
     fig_tight := true |}.

(** The three length checks [Axes.bar] makes during
    [plot_accuracy_comparison]. *)
Definition bar_shapes_ok (g : module_globals) : bool :=
  broadcastable 3 (List.length (centralized_acc g))
  && broadcastable 3 (List.length (centralized_unseen_acc g))
  && broadcastable (List.length (federated_labels g))
       (List.length (federated_acc g)).

(** ** Properties of computations *)

(** The computation never assigns a module-level name. *)
Definition preserves_globals {A} (m : M A) : Prop :=
  forall w, globals (snd (m w)) = globals w.

(** ** Counting what is on screen *)

Definition shown_figures (w : world) : list figure :=
  List.concat (displayed (plt w)).

(** Every bar container on a figure that has been shown. *)
Definition drawn_bars (w : world) : list bar_container :=
  flat_map ax_bars (flat_map fig_axes (shown_figures w)).

Definition is_bar_panel (a : axes) : bool :=
  match ax_bars a, ax_images a with
  | _ :: _, [] => true
  | _, _ => false
  end.

Definition bar_panels (fs : list figure) : nat :=
  List.length (filter is_bar_panel (flat_map fig_axes fs)).

Definition heatmaps (fs : list figure) : nat :=
  List.length (flat_map ax_images (flat_map fig_axes fs)).

(** What one call puts on screen when no figure is open and nothing has
    been shown yet. *)
Definition output (c : call) (g : module_globals) : list (list figure) :=
  displayed (plt (snd (run_call c (mk_world g [] [])))).

(** The screens of a call when the figures [l] are still open: they come
    up in the first [show]. *)
Definition with_open (l : list figure) (screens : list (list figure))
  : list (list figure) :=
  match screens with
  | [] => []
  | s :: rest => (l ++ s) :: rest
  end.

(** What was put on screen between the states [w] and [w1]. *)
Definition shown_by (w w1 : world) : list (list figure) :=
  skipn (List.length (displayed (plt w))) (displayed (plt w1)).

(** The loaded module after a call of [plot_confusion_matrix] that
    raised: the figure it opened is still open. *)
Definition leaked_once : world :=
  snd (plot_confusion_matrix [] "Bad" loaded).

(** The loaded module after one call of [compare_confusion_matrices]. *)
Definition compared_once : world :=
  mk_world module_load []
    [[heatmap_figure (cm_centralized module_load) "Centralized Model"];
     [heatmap_figure (cm_federated module_load) "Federated Model"]].

Definition row_sum (r : list Z) : Z := fold_right Z.add 0%Z r.

Definition within (lo hi x : pyfloat) : bool :=
  (PrimFloat.leb lo x && PrimFloat.leb x hi)%bool.

(** ** What [matshow] accepts *)

(** The grids [matshow] turns into an image: at least one row, all rows
    of one length, every entry within 64 bits. *)
Definition renderable (cm : grid) : bool :=
  negb (ragged cm) && negb (object_dtype cm)
  && match cm with [] => false | _ :: _ => true end.

(** The exception [matshow] raises on a grid it does not accept. *)
Definition matshow_error (cm : grid) : exn :=
  if ragged cm then InhomogeneousShape
  else if object_dtype cm then ImageDtypeError
  else InvalidImageShape.


(** The module with other datasets bound to the six names. *)
Definition with_globals (g : module_globals) : world :=
  mk_world g [] [].

(** ** Other datasets bound to the module's names *)

(** Two accuracies for the three centralized models. *)
Definition short_globals : module_globals :=
  {| centralized_acc := [65.69; 68.72]%float;
     centralized_unseen_acc := centralized_unseen_acc module_load;
     federated_acc := federated_acc module_load;
     federated_labels := federated_labels module_load;
     cm_centralized := cm_centralized module_load;
     cm_federated := cm_federated module_load |}.


(** No accuracy at all for the centralized models. *)
Definition empty_globals : module_globals :=
  {| centralized_acc := [];
     centralized_unseen_acc := centralized_unseen_acc module_load;
     federated_acc := federated_acc module_load;
     federated_labels := federated_labels module_load;
     cm_centralized := cm_centralized module_load;
     cm_federated := cm_federated module_load |}.

(** A centralized confusion matrix whose second row is short. *)
Definition ragged_centralized_globals : module_globals :=
  {| centralized_acc := centralized_acc module_load;
     centralized_unseen_acc := centralized_unseen_acc module_load;
     federated_acc := federated_acc module_load;
     federated_labels := federated_labels module_load;
     cm_centralized := [[50; 2; 1]; [1; 45]; [0; 3; 52]]%Z;
     cm_federated := cm_federated module_load |}.


(** * Properties *)

(** ** The current figure is the last open one *)

Lemma update_nth_last {A} (f : A -> A) (l : list A) (x : A) :
  update_nth (List.length l) f (l ++ [x]) = l ++ [f x].
Proof.
  induction l as [|y l IH]; simpl; [reflexivity|].
  now rewrite IH.
Qed.

Lemma nth_error_last {A} (l : list A) (x : A) :
  nth_error (l ++ [x]) (List.length l) = Some x.
Proof.
  induction l as [|y l IH]; simpl; auto.
Qed.

Lemma modify_figure_last g l fg d f :
  modify_figure (List.length l) f (mk_world g (l ++ [fg]) d)
  = (Val tt, mk_world g (l ++ [f fg]) d).
Proof.
  unfold modify_figure, modify_plt, set_figures, mk_world; simpl.
  now rewrite update_nth_last.
Qed.

Lemma modify_axes_last g l fg d i f :
  modify_axes (List.length l, i) f (mk_world g (l ++ [fg]) d)
  = (Val tt,
     mk_world g (l ++ [set_fig_axes (update_nth i f (fig_axes fg)) fg]) d).
Proof. unfold modify_axes; simpl. now rewrite modify_figure_last. Qed.

Lemma plt_gcf_last g l fg d :
  plt_gcf (mk_world g (l ++ [fg]) d)
  = (Val (List.length l), mk_world g (l ++ [fg]) d).
Proof.
  unfold plt_gcf, bind, get_figures; simpl.
  destruct l as [|x l]; simpl; [reflexivity|].
  unfold ret. now rewrite length_app, Nat.add_comm.
Qed.

Lemma plt_gca_last g l fg d :
  fig_axes fg <> [] ->
  plt_gca (mk_world g (l ++ [fg]) d)
  = (Val (List.length l, fig_current fg), mk_world g (l ++ [fg]) d).
Proof.
  intros Hne. unfold plt_gca, bind. rewrite plt_gcf_last.
  unfold get_figures; simpl. rewrite nth_error_last.
  destruct (fig_axes fg); [contradiction|reflexivity].
Qed.

Lemma plt_show_last g l fg d :
  plt_show (mk_world g (l ++ [fg]) d)
  = (Val tt, mk_world g [] (d ++ [l ++ [fg]])).
Proof.
  unfold plt_show, modify_plt; simpl.
  destruct l; reflexivity.
Qed.

Lemma plt_subplots_run g l d nrows ncols figsize :
  plt_subplots nrows ncols figsize (mk_world g l d)
  = (Val (List.length l,
          map (fun i => (List.length l, i)) (seq 0 (nrows * ncols))),
     mk_world g (l ++ [new_figure nrows ncols (Some figsize)]) d).
Proof. reflexivity. Qed.

Lemma bind_val {A B} (m : M A) (k : A -> M B) w a w' :
  m w = (Val a, w') -> bind m k w = k a w'.
Proof. unfold bind; now intros ->. Qed.

Lemma bind_exc {A B} (m : M A) (k : A -> M B) w e w' :
  m w = (Exc e, w') -> bind m k w = (Exc e, w').
Proof. unfold bind; now intros ->. Qed.

(** ** What one call of [plot_confusion_matrix] does *)

Lemma ax_matshow_last g l fg d i r z cmap :
  ragged (r :: z) = false ->
  object_dtype (r :: z) = false ->
  ax_matshow (List.length l, i) (r :: z) cmap (mk_world g (l ++ [fg]) d)
  = (Val ((List.length l, i),
          match nth_error (fig_axes fg) i with
          | Some a => List.length (ax_images a)
          | None => O
          end),
     mk_world g
       (l ++ [set_fig_axes
                (update_nth i
                   (fun a =>
                      set_ax_images
                        (ax_images a ++
                           [{| img_data := np_values (r :: z);
                               img_cmap := cmap;
                               img_colorbar := false |}]) a)
                   (fig_axes fg)) fg]) d).
Proof.
  intros Hr Ho. unfold ax_matshow. rewrite Hr, Ho.
  unfold bind at 1, get_figures at 1. simpl plt.
  unfold lookup_axes; simpl figures; simpl fst; simpl snd.
  rewrite nth_error_last.
  erewrite bind_val by apply modify_axes_last.
  reflexivity.
Qed.

Lemma plot_confusion_matrix_run cm title g l d :
  plot_confusion_matrix cm title (mk_world g l d)
  = if ragged cm then
      (Exc InhomogeneousShape,
       mk_world g (l ++ [new_figure 1 1 (Some (8, 8)%Z)]) d)
    else if object_dtype cm then
      (Exc ImageDtypeError,
       mk_world g (l ++ [new_figure 1 1 (Some (8, 8)%Z)]) d)
    else
      match cm with
      | [] => (Exc InvalidImageShape,
               mk_world g (l ++ [new_figure 1 1 (Some (8, 8)%Z)]) d)
      | _ :: _ => (Val tt, mk_world g [] (d ++ [l ++ [heatmap_figure cm title]]))
      end.
Proof.
  unfold plot_confusion_matrix, plt_subplots1.
  erewrite bind_val; [|erewrite bind_val by apply plt_subplots_run; reflexivity].
  cbv beta. simpl snd.
  destruct (ragged cm) eqn:Hr.
  - erewrite bind_exc; [reflexivity|].
    unfold ax_matshow. now rewrite Hr.
  - destruct (object_dtype cm) eqn:Ho.
    { erewrite bind_exc; [reflexivity|].
      unfold ax_matshow. now rewrite Hr, Ho. }
    destruct cm as [|r z].
    + erewrite bind_exc; [reflexivity|].
      unfold ax_matshow. now rewrite Hr, Ho.
    + erewrite bind_val by (apply ax_matshow_last; assumption).
      unfold plt_colorbar.
      erewrite bind_val by apply modify_axes_last.
      unfold ax_set_title.
      erewrite bind_val by apply modify_axes_last.
      unfold plt_xlabel.
      erewrite bind_val.
      2:{ erewrite bind_val by (apply plt_gca_last; discriminate).
          unfold ax_set_xlabel. apply modify_axes_last. }
      unfold plt_ylabel.
      erewrite bind_val.
      2:{ erewrite bind_val by (apply plt_gca_last; discriminate).
          unfold ax_set_ylabel. apply modify_axes_last. }
      rewrite plt_show_last. reflexivity.
Qed.

(** ** What one call of [plot_accuracy_comparison] does *)

Lemma ax_bar_last g l fg d i x v color label :
  broadcastable (List.length x) (List.length v) = true ->
  ax_bar (List.length l, i) x v color label (mk_world g (l ++ [fg]) d)
  = (Val tt,
     mk_world g
       (l ++ [set_fig_axes
                (update_nth i
                   (fun a =>
                      {| ax_bars := ax_bars a ++ [bars_of x v color label];
                         ax_images := ax_images a; ax_ylim := ax_ylim a;
                         ax_title := ax_title a; ax_title_pad := ax_title_pad a;
                         ax_xlabel := ax_xlabel a; ax_ylabel := ax_ylabel a;
                         ax_legend := ax_legend a |})
                   (fig_axes fg)) fg]) d).
Proof.
  intros Hb. unfold ax_bar. rewrite Hb. apply modify_axes_last.
Qed.

Lemma plt_suptitle_last g l fg d t :
  plt_suptitle t (mk_world g (l ++ [fg]) d)
  = (Val tt,
     mk_world g
       (l ++ [{| fig_figsize := fig_figsize fg; fig_nrows := fig_nrows fg;
                 fig_ncols := fig_ncols fg; fig_axes := fig_axes fg;
                 fig_current := fig_current fg; fig_suptitle := Some t;
                 fig_tight := fig_tight fg |}]) d).
Proof.
  unfold plt_suptitle.
  erewrite bind_val by apply plt_gcf_last.
  apply modify_figure_last.
Qed.

Lemma plt_tight_layout_last g l fg d :
  plt_tight_layout (mk_world g (l ++ [fg]) d)
  = (Val tt,
     mk_world g
       (l ++ [{| fig_figsize := fig_figsize fg; fig_nrows := fig_nrows fg;
                 fig_ncols := fig_ncols fg; fig_axes := fig_axes fg;
                 fig_current := fig_current fg; fig_suptitle := fig_suptitle fg;
                 fig_tight := true |}]) d).
Proof.
  unfold plt_tight_layout.
  erewrite bind_val by apply plt_gcf_last.
  apply modify_figure_last.
Qed.

Lemma read_run {A} (name : module_globals -> A) g l d :
  read name (mk_world g l d) = (Val (name g), mk_world g l d).
Proof. reflexivity. Qed.

(** One statement of the function body, run on a world whose current
    figure is the last open one. *)
Ltac py_step :=
  erewrite bind_val by
    first [ apply plt_subplots_run
          | apply read_run
          | apply ax_bar_last; assumption
          | apply plt_suptitle_last
          | apply plt_tight_layout_last
          | unfold ax_set_ylim, ax_set_title, ax_set_ylabel, ax_make_legend;
            apply modify_axes_last
          | reflexivity ].

(** Bring the current figure back to an explicit record, so that it does
    not grow with every statement. *)
Ltac fig_norm :=
  cbn [set_fig_axes update_nth new_figure blank_axes repeat Nat.mul Nat.add
       Nat.pred fig_figsize fig_nrows fig_ncols fig_axes fig_current
       fig_suptitle fig_tight ax_bars ax_images ax_ylim ax_title ax_title_pad
       ax_xlabel ax_ylabel ax_legend app map filter bar_label legend_visible
       bars_of negb Ascii.eqb Bool.eqb andb].

Lemma plot_accuracy_comparison_run g l d :
  bar_shapes_ok g = true ->
  plot_accuracy_comparison (mk_world g l d)
  = (Val tt, mk_world g [] (d ++ [l ++ [accuracy_figure g]])).
Proof.
  unfold bar_shapes_ok. intros H.
  apply andb_prop in H as [H H3]. apply andb_prop in H as [H1 H2].
  unfold plot_accuracy_comparison.
  py_step. cbv beta zeta. simpl snd.
  repeat (py_step; fig_norm).
  rewrite plt_show_last. reflexivity.
Qed.

(** ** Frame: the functions never assign a module-level name *)

Create HintDb py_frame.

Lemma pg_ret {A} (a : A) : preserves_globals (ret a).
Proof. now intros w. Qed.

Lemma pg_raise {A} e : preserves_globals (@raise A e).
Proof. now intros w. Qed.

Lemma pg_read {A} (name : module_globals -> A) : preserves_globals (read name).
Proof. now intros w. Qed.

Lemma pg_get_figures : preserves_globals get_figures.
Proof. now intros w. Qed.

Lemma pg_modify_plt f : preserves_globals (modify_plt f).
Proof. now intros w. Qed.

Lemma pg_bind {A B} (m : M A) (k : A -> M B) :
  preserves_globals m -> (forall a, preserves_globals (k a)) ->
  preserves_globals (bind m k).
Proof.
  intros Hm Hk w. unfold bind.
  specialize (Hm w). destruct (m w) as [[a|e] w1]; simpl in *.
  - now rewrite Hk.
  - exact Hm.
Qed.

#[local] Hint Resolve pg_ret pg_raise pg_read pg_get_figures pg_modify_plt : py_frame.

(** Walk down a function body: binds, conditionals and matches. *)
Ltac frame_walk :=
  repeat first
    [ progress intros
    | solve [auto with py_frame]
    | apply pg_bind
    | match goal with
      | |- preserves_globals (if ?b then _ else _) => destruct b
      | |- preserves_globals (match ?x with _ => _ end) => destruct x
      end ].

Lemma pg_modify_axes h f : preserves_globals (modify_axes h f).
Proof. unfold modify_axes, modify_figure. frame_walk. Qed.

Lemma pg_modify_figure h f : preserves_globals (modify_figure h f).
Proof. unfold modify_figure. frame_walk. Qed.

#[local] Hint Resolve pg_modify_axes pg_modify_figure : py_frame.

Lemma pg_plt_subplots r c s : preserves_globals (plt_subplots r c s).
Proof. unfold plt_subplots. frame_walk. Qed.

Lemma pg_getitem {A} (l : list A) i : preserves_globals (getitem l i).
Proof. unfold getitem. frame_walk. Qed.

Lemma pg_ax_bar h x v c lab : preserves_globals (ax_bar h x v c lab).
Proof. unfold ax_bar. frame_walk. Qed.

Lemma pg_ax_matshow h z c : preserves_globals (ax_matshow h z c).
Proof. unfold ax_matshow. frame_walk. Qed.

Lemma pg_plt_gcf : preserves_globals plt_gcf.
Proof. unfold plt_gcf. frame_walk. Qed.

#[local] Hint Resolve pg_plt_subplots pg_getitem pg_ax_bar pg_ax_matshow
  pg_plt_gcf : py_frame.

Lemma pg_plt_gca : preserves_globals plt_gca.
Proof. unfold plt_gca. frame_walk. Qed.

#[local] Hint Resolve pg_plt_gca : py_frame.

Lemma pg_plot_accuracy_comparison : preserves_globals plot_accuracy_comparison.
Proof.
  unfold plot_accuracy_comparison, ax_set_ylim, ax_set_title, ax_set_ylabel,
    ax_make_legend, plt_suptitle, plt_tight_layout, plt_show.
  frame_walk.
Qed.

Lemma pg_plot_confusion_matrix cm title :
  preserves_globals (plot_confusion_matrix cm title).
Proof.
  unfold plot_confusion_matrix, plt_subplots1, plt_colorbar, ax_set_title,
    plt_xlabel, plt_ylabel, ax_set_xlabel, ax_set_ylabel, plt_show.
  frame_walk.
Qed.

#[local] Hint Resolve pg_plot_accuracy_comparison pg_plot_confusion_matrix
  : py_frame.

Lemma pg_compare_confusion_matrices : preserves_globals compare_confusion_matrices.
Proof. unfold compare_confusion_matrices. frame_walk. Qed.

Lemma pg_run_call c : preserves_globals (run_call c).
Proof.
  destruct c; simpl; auto using pg_compare_confusion_matrices with py_frame.
Qed.

Lemma pg_run_calls cs : preserves_globals (run_calls cs).
Proof.
  induction cs as [|c cs IH]; simpl.
  - apply pg_ret.
  - apply pg_bind; [apply pg_run_call | intros _; exact IH].
Qed.

Lemma pg_main : preserves_globals main.
Proof.
  unfold main. apply pg_bind; [apply pg_plot_accuracy_comparison|].
  intros _. apply pg_compare_confusion_matrices.
Qed.

(** ** The script as a whole *)

(** C1.  Run as [__main__], the script calls [plot_accuracy_comparison]
    and then, on the state that call leaves, [compare_confusion_matrices];
    the display log holds the accuracy figure first and the two heat maps
    after it, and nothing else.  Under any other module name nothing is
    rendered. *)
Theorem script_runs_accuracy_then_confusion :
  (forall w,
     main w = match plot_accuracy_comparison w with
              | (Val _, w1) => compare_confusion_matrices w1
              | (Exc e, w1) => (Exc e, w1)
              end) /\
  (exists w1 w2,
     plot_accuracy_comparison loaded = (Val tt, w1) /\
     compare_confusion_matrices w1 = (Val tt, w2) /\
     script "__main__" = (Val tt, w2) /\
     displayed (plt w1) = [[accuracy_figure module_load]] /\
     displayed (plt w2) =
       [[accuracy_figure module_load];
        [heatmap_figure (cm_centralized module_load) "Centralized Model"];
        [heatmap_figure (cm_federated module_load) "Federated Model"]]) /\
  (forall name,
     displayed (plt (snd (script name))) =
       if String.eqb name "__main__" then
         [[accuracy_figure module_load];
          [heatmap_figure (cm_centralized module_load) "Centralized Model"];
          [heatmap_figure (cm_federated module_load) "Federated Model"]]
       else []).
Proof.
  split; [reflexivity | split].
  - eexists; eexists.
    split; [vm_compute; reflexivity|].
    split; [vm_compute; reflexivity|].
    repeat split; vm_compute; reflexivity.
  - intros name. unfold script.
    destruct (String.eqb name "__main__"); vm_compute; reflexivity.
Qed.

(** C2.  On the literal datasets of the module the script returns
    normally; [plot_accuracy_comparison] shows one figure with two axes,
    both bar panels, and [compare_confusion_matrices] then shows two
    figures holding one heat map each. *)
Theorem literal_inputs_render_two_panels_two_heatmaps :
  centralized_acc module_load = [65.69; 68.72; 68.36]%float /\
  centralized_unseen_acc module_load = [0.0; 0.0; 0.0]%float /\
  federated_acc module_load = [95.94; 97.35; 94.48; 94.64]%float /\
  fst (script "__main__") = Val tt /\
  exists fg h1 h2 w1,
    plot_accuracy_comparison loaded = (Val tt, w1) /\
    displayed (plt w1) = [[fg]] /\
    List.length (fig_axes fg) = 2 /\
    bar_panels [fg] = 2 /\
    heatmaps [fg] = 0 /\
    displayed (plt (snd (compare_confusion_matrices w1))) = [[fg]; [h1]; [h2]] /\
    fst (compare_confusion_matrices w1) = Val tt /\
    heatmaps [h1] = 1 /\
    heatmaps [h2] = 1 /\
    heatmaps [h1; h2] = 2 /\
    bar_panels [h1; h2] = 0.
Proof.
  do 4 (split; [vm_compute; reflexivity|]).
  exists (accuracy_figure module_load),
    (heatmap_figure (cm_centralized module_load) "Centralized Model"),
    (heatmap_figure (cm_federated module_load) "Federated Model"),
    (mk_world module_load [] [[accuracy_figure module_load]]).
  do 10 (split; [vm_compute; reflexivity|]).
  vm_compute; reflexivity.
Qed.

(** ** [plot_accuracy_comparison] *)

(** C3.  [plot_accuracy_comparison] has no parameter and returns [None].
    Whenever its three [bar] calls pass the library's length check, it
    opens exactly one figure, laid out as one row of two axes, draws bars
    on both, fixes the y-range of both at 0 to 100 and shows it. *)
Theorem plot_accuracy_comparison_side_by_side (w : world) :
  bar_shapes_ok (globals w) = true ->
  exists fg,
    plot_accuracy_comparison w
    = (Val tt,
       mk_world (globals w) []
         (displayed (plt w) ++ [figures (plt w) ++ [fg]])) /\
    fig_nrows fg = 1 /\
    fig_ncols fg = 2 /\
    map ax_ylim (fig_axes fg)
    = [Some (0, 100)%float; Some (0, 100)%float] /\
    map (fun a => List.length (ax_bars a)) (fig_axes fg) = [2; 1] /\
    map (fun a => List.length (ax_images a)) (fig_axes fg) = [0; 0] /\
    map ax_legend (fig_axes fg)
    = [Some {| leg_loc := "upper left";
               leg_entries := ["Entire Dataset"; "Unseen Digits"] |};
       Some {| leg_loc := "upper left";
               leg_entries := ["Federated Results"] |}].
Proof.
  destruct w as [g [l d]]. simpl. intros H.
  exists (accuracy_figure g).
  split; [exact (plot_accuracy_comparison_run g l d H)|].
  repeat split.
Qed.

Lemma plot_accuracy_comparison_side_by_side_witness :
  exists fg,
    plot_accuracy_comparison loaded
    = (Val tt, mk_world module_load [] ([] ++ [[] ++ [fg]])) /\
    fig_nrows fg = 1 /\
    fig_ncols fg = 2 /\
    map ax_ylim (fig_axes fg)
    = [Some (0, 100)%float; Some (0, 100)%float] /\
    map (fun a => List.length (ax_bars a)) (fig_axes fg) = [2; 1] /\
    map (fun a => List.length (ax_images a)) (fig_axes fg) = [0; 0] /\
    map ax_legend (fig_axes fg)
    = [Some {| leg_loc := "upper left";
               leg_entries := ["Entire Dataset"; "Unseen Digits"] |};
       Some {| leg_loc := "upper left";
               leg_entries := ["Federated Results"] |}].
Proof.
  apply (plot_accuracy_comparison_side_by_side loaded).
  reflexivity.
Defined.

(** C4.  Each of the three [bar] calls gets as many labels as values:
    three model labels against [centralized_acc] and against
    [centralized_unseen_acc], four [federated_labels] against
    [federated_acc]; the bars drawn carry exactly those arrays. *)
Theorem bar_labels_match_values :
  List.length ["Model 1"; "Model 2"; "Model 3"]
  = List.length (centralized_acc module_load) /\
  List.length ["Model 1"; "Model 2"; "Model 3"]
  = List.length (centralized_unseen_acc module_load) /\
  List.length (federated_labels module_load) = 4 /\
  List.length (federated_acc module_load) = 4 /\
  map (fun b => (bar_x b, bar_height b))
    (drawn_bars (snd (plot_accuracy_comparison loaded)))
  = [(["Model 1"; "Model 2"; "Model 3"], centralized_acc module_load);
     (["Model 1"; "Model 2"; "Model 3"], centralized_unseen_acc module_load);
     (federated_labels module_load, federated_acc module_load)] /\
  Forall (fun b => List.length (bar_x b) = List.length (bar_height b))
    (drawn_bars (snd (plot_accuracy_comparison loaded))).
Proof.
  repeat split; try reflexivity.
  vm_compute. repeat constructor.
Qed.

(** ** The datasets *)

(** C5.  [cm_centralized] and [cm_federated] both have three rows of
    three entries, every entry is a non-negative integer, and so is every
    row sum. *)
Theorem confusion_matrices_square_nonnegative :
  Forall
    (fun cm : grid =>
       List.length cm = 3 /\
       Forall
         (fun r =>
            List.length r = 3 /\
            Forall (fun x => (0 <= x)%Z) r /\
            (0 <= row_sum r)%Z)
         cm)
    [cm_centralized module_load; cm_federated module_load].
Proof.
  repeat constructor; vm_compute; discriminate.
Qed.

(** C10.  Every value of [centralized_acc], [centralized_unseen_acc] and
    [federated_acc] lies between 0 and 100, and on the figure shown by
    [plot_accuracy_comparison] every axes has y-range 0 to 100 with every
    bar height inside it. *)
Theorem accuracies_fit_axis_range :
  Forall (fun x => within 0%float 100%float x = true) (centralized_acc module_load) /\
  Forall (fun x => within 0%float 100%float x = true) (centralized_unseen_acc module_load) /\
  Forall (fun x => within 0%float 100%float x = true) (federated_acc module_load) /\
  Forall
    (fun fg =>
       Forall
         (fun a =>
            ax_ylim a = Some (0, 100)%float /\
            Forall
              (fun b => Forall (fun h => within 0%float 100%float h = true) (bar_height b))
              (ax_bars a))
         (fig_axes fg))
    (shown_figures (snd (plot_accuracy_comparison loaded))) /\
  List.length (drawn_bars (snd (plot_accuracy_comparison loaded))) = 3.
Proof.
  repeat split; vm_compute; repeat constructor.
Qed.

(** C7.  Whatever sequence of calls to the three functions is run, and
    whether or not one of them raises, the module-level datasets are what
    they were before; started from the freshly loaded module they are the
    literals of the source. *)
Theorem datasets_never_mutated :
  (forall cs w, globals (snd (run_calls cs w)) = globals w) /\
  (forall cs,
     globals (snd (run_calls cs loaded))
     = {| centralized_acc := [65.69; 68.72; 68.36]%float;
          centralized_unseen_acc := [0.0; 0.0; 0.0]%float;
          federated_acc := [95.94; 97.35; 94.48; 94.64]%float;
          federated_labels := ["All Digits"; "[1,3,7]"; "[2,5,8]"; "[4,6,9]"];
          cm_centralized := [[50; 2; 1]; [1; 45; 5]; [0; 3; 52]]%Z;
          cm_federated := [[58; 1; 0]; [1; 57; 2]; [0; 1; 59]]%Z |}).
Proof.
  split.
  - intros cs w. apply pg_run_calls.
  - intros cs. now rewrite pg_run_calls.
Qed.

(** C8.  [centralized_unseen_acc] is three times [0.0] when the module is
    loaded, and it still is after the script has run under any module
    name and after any sequence of calls to the three functions. *)
Theorem unseen_accuracy_stays_zero :
  Forall (fun x => x = 0%float) (centralized_unseen_acc module_load) /\
  (forall name,
     Forall (fun x => x = 0%float)
       (centralized_unseen_acc (globals (snd (script name))))) /\
  (forall cs,
     Forall (fun x => x = 0%float)
       (centralized_unseen_acc (globals (snd (run_calls cs loaded))))).
Proof.
  assert (H0 : Forall (fun x => x = 0%float) (centralized_unseen_acc module_load))
    by (repeat constructor).
  split; [exact H0 | split].
  - intros name. unfold script.
    destruct (String.eqb name "__main__"); [|exact H0].
    now rewrite pg_main.
  - intros cs. now rewrite pg_run_calls.
Qed.

(** ** [plot_confusion_matrix] *)


(** An entry that does not fit 64 bits is refused by the library, after
    the figure has been opened. *)
Example plot_confusion_matrix_wide_entry :
  plot_confusion_matrix [[2 ^ 64; 1]; [1; 1]]%Z "Wide entry" loaded
  = (Exc ImageDtypeError,
     mk_world module_load [new_figure 1 1 (Some (8, 8)%Z)] []).
Proof. vm_compute. reflexivity. Qed.

(** Signed and unsigned 64-bit entries together are promoted to
    [float64]: [2^63 + 1] is drawn as [2^63]. *)
Example np_values_promoted :
  np_values [[2 ^ 63 + 1; -1]]%Z = [[2 ^ 63; -1]]%Z /\
  np_values [[2 ^ 63; -1]]%Z = [[2 ^ 63; -1]]%Z /\
  np_values [[2 ^ 63 + 1; 1]]%Z = [[2 ^ 63 + 1; 1]]%Z.
Proof. repeat split; vm_compute; reflexivity. Qed.

(** A grid of two rows and three columns is rendered like any other. *)
Example plot_confusion_matrix_2x3 :
  plot_confusion_matrix [[1; 2; 3]; [4; 5; 6]]%Z "Wide" loaded
  = (Val tt,
     mk_world module_load []
       [[heatmap_figure [[1; 2; 3]; [4; 5; 6]]%Z "Wide"]]).
Proof. reflexivity. Qed.

(** * Further properties of the three functions *)

(** ** Auxiliary facts *)

(** [bar] measures a height of [-0.0] from the bottom as [+0.0], and
    leaves the accuracies of the module as they are. *)
Example convert_dx_negative_zero :
  convert_dx 0%float (PrimFloat.opp 0%float) = 0%float /\
  map (convert_dx 0%float) (centralized_acc module_load)
  = centralized_acc module_load /\
  map (convert_dx 0%float) (federated_acc module_load)
  = federated_acc module_load.
Proof. repeat split; vm_compute; reflexivity. Qed.

Lemma ax_bar_fail h x v color label w :
  broadcastable (List.length x) (List.length v) = false ->
  ax_bar h x v color label w = (Exc ShapeMismatch, w).
Proof. intros Hb. unfold ax_bar. now rewrite Hb. Qed.

Lemma plot_confusion_matrix_ok cm title g l d :
  renderable cm = true ->
  plot_confusion_matrix cm title (mk_world g l d)
  = (Val tt, mk_world g [] (d ++ [l ++ [heatmap_figure cm title]])).
Proof.
  unfold renderable. intros H.
  apply andb_prop in H as [H Hn]. apply andb_prop in H as [Hr Ho].
  rewrite plot_confusion_matrix_run.
  apply negb_true_iff in Hr. apply negb_true_iff in Ho. rewrite Hr, Ho.
  destruct cm; [discriminate | reflexivity].
Qed.

Lemma plot_confusion_matrix_fail cm title g l d :
  renderable cm = false ->
  plot_confusion_matrix cm title (mk_world g l d)
  = (Exc (matshow_error cm),
     mk_world g (l ++ [new_figure 1 1 (Some (8, 8)%Z)]) d).
Proof.
  unfold renderable, matshow_error. intros H.
  rewrite plot_confusion_matrix_run.
  destruct (ragged cm); [reflexivity|].
  destruct (object_dtype cm); [reflexivity|].
  destruct cm; [reflexivity | discriminate].
Qed.

Lemma plot_accuracy_comparison_fail g l d :
  bar_shapes_ok g = false ->
  exists fg,
    plot_accuracy_comparison (mk_world g l d)
    = (Exc ShapeMismatch, mk_world g (l ++ [fg]) d) /\
    List.length (fig_axes fg) = 2.
Proof.
  unfold bar_shapes_ok.
  destruct (broadcastable 3 (List.length (centralized_acc g))) eqn:H1;
  destruct (broadcastable 3 (List.length (centralized_unseen_acc g))) eqn:H2;
  destruct (broadcastable (List.length (federated_labels g))
              (List.length (federated_acc g))) eqn:H3;
  simpl; intros H; try discriminate;
  unfold plot_accuracy_comparison;
  py_step; cbv beta zeta; simpl snd;
  repeat (py_step; fig_norm);
  (erewrite bind_exc by (apply ax_bar_fail; assumption));
  eexists; split; reflexivity.
Qed.






Lemma compare_confusion_matrices_ok g l d :
  renderable (cm_centralized g) = true ->
  renderable (cm_federated g) = true ->
  compare_confusion_matrices (mk_world g l d)
  = (Val tt,
     mk_world g []
       (d ++ [l ++ [heatmap_figure (cm_centralized g) "Centralized Model"];
              [heatmap_figure (cm_federated g) "Federated Model"]])).
Proof.
  intros Hc Hf. unfold compare_confusion_matrices.
  erewrite bind_val by apply (read_run cm_centralized).
  erewrite bind_val by (apply plot_confusion_matrix_ok; exact Hc).
  erewrite bind_val by apply (read_run cm_federated).
  rewrite plot_confusion_matrix_ok by exact Hf.
  simpl. now rewrite <- app_assoc.
Qed.

(** ** [compare_confusion_matrices] on any matrices *)



(** X2.  When [matshow] refuses the centralized matrix,
    [compare_confusion_matrices] raises that exception at once: nothing
    is shown, the federated matrix is never plotted, and the figure
    opened for the centralized one stays open. *)
Theorem compare_stops_at_centralized (w : world) :
  renderable (cm_centralized (globals w)) = false ->
  compare_confusion_matrices w
  = (Exc (matshow_error (cm_centralized (globals w))),
     mk_world (globals w)
       (figures (plt w) ++ [new_figure 1 1 (Some (8, 8)%Z)])
       (displayed (plt w))).
Proof.
  destruct w as [g [l d]]; simpl. intros Hc.
  unfold compare_confusion_matrices.
  erewrite bind_val by apply (read_run cm_centralized).
  erewrite bind_exc by (apply plot_confusion_matrix_fail; exact Hc).
  reflexivity.
Qed.

Lemma compare_stops_at_centralized_witness :
  compare_confusion_matrices (with_globals ragged_centralized_globals)
  = (Exc (matshow_error
            (cm_centralized (globals (with_globals ragged_centralized_globals)))),
     mk_world (globals (with_globals ragged_centralized_globals))
       (figures (plt (with_globals ragged_centralized_globals))
          ++ [new_figure 1 1 (Some (8, 8)%Z)])
       (displayed (plt (with_globals ragged_centralized_globals)))).
Proof.
  apply (compare_stops_at_centralized (with_globals ragged_centralized_globals)).
  reflexivity.
Defined.



(** ** [plot_accuracy_comparison] on any datasets *)

(** X4.  When one of the three [bar] calls is given lengths that do not
    broadcast, [plot_accuracy_comparison] raises the library's
    [ValueError] and nothing else: nothing is shown, and the two-panel
    figure it had opened stays open. *)
Theorem plot_accuracy_comparison_shape_error (w : world) :
  bar_shapes_ok (globals w) = false ->
  exists fg,
    plot_accuracy_comparison w
    = (Exc ShapeMismatch,
       mk_world (globals w) (figures (plt w) ++ [fg]) (displayed (plt w))) /\
    List.length (fig_axes fg) = 2.
Proof.
  destruct w as [g [l d]]; simpl.
  exact (plot_accuracy_comparison_fail g l d).
Qed.

Lemma plot_accuracy_comparison_shape_error_witness :
  exists fg,
    plot_accuracy_comparison (with_globals short_globals)
    = (Exc ShapeMismatch,
       mk_world (globals (with_globals short_globals))
         (figures (plt (with_globals short_globals)) ++ [fg])
         (displayed (plt (with_globals short_globals)))) /\
    List.length (fig_axes fg) = 2.
Proof.
  apply (plot_accuracy_comparison_shape_error (with_globals short_globals)).
  reflexivity.
Defined.





(** X7.  An empty [centralized_acc] is not drawn as an empty chart: three
    labels against no value do not broadcast, so the call raises and
    shows nothing. *)
Theorem empty_centralized_dataset_raises (w : world) :
  centralized_acc (globals w) = [] ->
  fst (plot_accuracy_comparison w) = Exc ShapeMismatch /\
  displayed (plt (snd (plot_accuracy_comparison w))) = displayed (plt w).
Proof.
  destruct w as [g [l d]]; simpl. intros H.
  destruct (plot_accuracy_comparison_fail g l d) as [fg [E _]].
  - unfold bar_shapes_ok. now rewrite H.
  - unfold mk_world in E. rewrite E. split; reflexivity.
Qed.

Lemma empty_centralized_dataset_raises_witness :
  fst (plot_accuracy_comparison (with_globals empty_globals))
  = Exc ShapeMismatch /\
  displayed (plt (snd (plot_accuracy_comparison (with_globals empty_globals))))
  = displayed (plt (with_globals empty_globals)).
Proof.
  apply (empty_centralized_dataset_raises (with_globals empty_globals)).
  reflexivity.
Defined.

(** ** The guarded body of the script on any datasets *)

(** X8.  If the accuracy chart fails, [main] stops there:
    [compare_confusion_matrices] is not called and no heat map is
    shown. *)
Theorem main_stops_when_first_chart_fails (w : world) :
  bar_shapes_ok (globals w) = false ->
  fst (main w) = Exc ShapeMismatch /\
  snd (main w) = snd (plot_accuracy_comparison w) /\
  displayed (plt (snd (main w))) = displayed (plt w).
Proof.
  destruct w as [g [l d]]; simpl. intros H.
  destruct (plot_accuracy_comparison_fail g l d H) as [fg [E _]].
  unfold mk_world in E. unfold main, bind. rewrite E.
  repeat split.
Qed.

Lemma main_stops_when_first_chart_fails_witness :
  fst (main (with_globals short_globals)) = Exc ShapeMismatch /\
  snd (main (with_globals short_globals))
  = snd (plot_accuracy_comparison (with_globals short_globals)) /\
  displayed (plt (snd (main (with_globals short_globals))))
  = displayed (plt (with_globals short_globals)).
Proof.
  apply (main_stops_when_first_chart_fails (with_globals short_globals)).
  reflexivity.
Defined.



(** ** [plot_confusion_matrix] across calls *)





(** ** Calling a function twice *)

Lemma compare_confusion_matrices_fail_first g l d :
  renderable (cm_centralized g) = false ->
  compare_confusion_matrices (mk_world g l d)
  = (Exc (matshow_error (cm_centralized g)),
     mk_world g (l ++ [new_figure 1 1 (Some (8, 8)%Z)]) d).
Proof.
  intros Hc. unfold compare_confusion_matrices.
  erewrite bind_val by apply (read_run cm_centralized).
  erewrite bind_exc by (apply plot_confusion_matrix_fail; exact Hc).
  reflexivity.
Qed.

Lemma compare_confusion_matrices_fail_second g l d :
  renderable (cm_centralized g) = true ->
  renderable (cm_federated g) = false ->
  compare_confusion_matrices (mk_world g l d)
  = (Exc (matshow_error (cm_federated g)),
     mk_world g [new_figure 1 1 (Some (8, 8)%Z)]
       (d ++ [l ++ [heatmap_figure (cm_centralized g) "Centralized Model"]])).
Proof.
  intros Hc Hf. unfold compare_confusion_matrices.
  erewrite bind_val by apply (read_run cm_centralized).
  erewrite bind_val by (apply plot_confusion_matrix_ok; exact Hc).
  erewrite bind_val by apply (read_run cm_federated).
  rewrite plot_confusion_matrix_fail by exact Hf.
  reflexivity.
Qed.

Lemma with_open_nil (screens : list (list figure)) :
  with_open [] screens = screens.
Proof. destruct screens; reflexivity. Qed.

(** Whether a call returns is decided by its arguments and the datasets;
    what it shows is its own figures, after the figures still open. *)
Lemma run_call_from_any_state c g l d w1 :
  run_call c (mk_world g l d) = (Val tt, w1) ->
  forall l' d',
    run_call c (mk_world g l' d')
    = (Val tt, mk_world g [] (d' ++ with_open l' (output c g))).
Proof.
  destruct c as [|cm title|]; simpl run_call; unfold output; simpl run_call.
  - destruct (bar_shapes_ok g) eqn:Hb.
    + intros _ l' d'. rewrite !plot_accuracy_comparison_run by exact Hb.
      reflexivity.
    + intros H. destruct (plot_accuracy_comparison_fail g l d Hb) as [fg [E _]].
      rewrite E in H. discriminate.
  - destruct (renderable cm) eqn:Hc.
    + intros _ l' d'. rewrite !plot_confusion_matrix_ok by exact Hc.
      reflexivity.
    + rewrite plot_confusion_matrix_fail by exact Hc. discriminate.
  - destruct (renderable (cm_centralized g)) eqn:Hc.
    + destruct (renderable (cm_federated g)) eqn:Hf.
      * intros _ l' d'. rewrite !compare_confusion_matrices_ok by assumption.
        reflexivity.
      * rewrite compare_confusion_matrices_fail_second by assumption.
        discriminate.
    + rewrite compare_confusion_matrices_fail_first by exact Hc.
      discriminate.
Qed.

(** C6, as stated, fails: after a call that raised and left its figure
    open, two identical calls of [plot_confusion_matrix] both return,
    but the first shows two figures and the second one. *)
Lemma render_twice_differs_after_failed_call :
  exists w1 w2,
    run_call (PlotConfusionMatrix [[1]]%Z "Good") leaked_once = (Val tt, w1) /\
    run_call (PlotConfusionMatrix [[1]]%Z "Good") w1 = (Val tt, w2) /\
    shown_by leaked_once w1 <> shown_by w1 w2.
Proof.
  eexists. eexists.
  split; [vm_compute; reflexivity|].
  split; [vm_compute; reflexivity|].
  vm_compute. discriminate.
Qed.

(** C6, amended.  A call that returns shows the figures still open at
    that moment together with its own first figure, and then its other
    figures; its own figures depend only on its arguments and on the
    module datasets.  Made again in any state with the same datasets the
    call returns again and shows the same figures of its own, so the two
    outputs are identical whenever the same figures, in particular none,
    are open at both calls. *)
Theorem render_twice_same_up_to_open_figures (c : call) (w w' w1 : world) :
  globals w' = globals w ->
  run_call c w = (Val tt, w1) ->
  displayed (plt w1)
  = displayed (plt w) ++ with_open (figures (plt w)) (output c (globals w)) /\
  exists w1',
    run_call c w' = (Val tt, w1') /\
    displayed (plt w1')
    = displayed (plt w') ++ with_open (figures (plt w')) (output c (globals w)).
Proof.
  destruct w as [g [l d]], w' as [g' [l' d']]; simpl. intros -> H.
  pose proof (run_call_from_any_state c g l d w1 H) as R.
  change {| globals := g; plt := {| figures := l; displayed := d |} |}
    with (mk_world g l d) in H.
  rewrite (R l d) in H. injection H as <-.
  split; [reflexivity|].
  eexists. split; [exact (R l' d') | reflexivity].
Qed.

Lemma render_twice_same_up_to_open_figures_witness :
  displayed (plt compared_once)
  = displayed (plt loaded)
      ++ with_open (figures (plt loaded))
           (output CompareConfusionMatrices (globals loaded)) /\
  exists w1',
    run_call CompareConfusionMatrices compared_once = (Val tt, w1') /\
    displayed (plt w1')
    = displayed (plt compared_once)
        ++ with_open (figures (plt compared_once))
             (output CompareConfusionMatrices (globals loaded)).
Proof.
  apply (render_twice_same_up_to_open_figures CompareConfusionMatrices
           loaded compared_once compared_once).
  - reflexivity.
  - vm_compute. reflexivity.
Defined.
